(** * lightjs core: binding decorated controllers onto an Express router

    A shallow embedding of
    [packages/core/src/express-extension/use-express-server.ts]
    and the properties of its path combiner, prefix lookup, async dispatch
    wrapper, route registrar and bootstrap entry point. *)

From Stdlib Require Import List String Ascii Bool Arith Lia.
Import ListNotations.
Open Scope string_scope.

Set Implicit Arguments.

(** ** JavaScript string primitives used by the source

    A JavaScript string is a finite sequence of code units.  The source only
    compares against [''] and ['/'], reads the unit at index 0, drops a
    prefix and concatenates, so the unit type is immaterial; [string] (a
    sequence of [ascii]) is used. *)

Module Js.

(** [s.charAt(i)]: the one-unit string at index [i], or [''] out of range. *)
Definition charAt (i : nat) (s : string) : string :=
  match String.get i s with
  | Some c => String c ""
  | None => ""
  end.

(** [s.substring(i)]: the suffix starting at index [i] (empty when [i] is
    past the end). *)
Fixpoint substring (i : nat) (s : string) : string :=
  match i, s with
  | O, _ => s
  | S _, EmptyString => ""
  | S j, String _ r => substring j r
  end.

(** [a === b] and [a !== b] on strings. *)
Definition seq (a b : string) : bool := String.eqb a b.
Definition sneq (a b : string) : bool := negb (String.eqb a b).

(** [xs || []] for an optional array: an absent value is falsy, every array
    (also the empty one) is truthy. *)
Definition orEmpty {A : Type} (xs : option (list A)) : list A :=
  match xs with
  | Some l => l
  | None => []
  end.

End Js.

(** ** Path combiner *)

(** [combineRouterPath], statement by statement; the re-assignments of
    [prefix], [path] and [result] are successive [let]s. *)
Definition combineRouterPath (prefix path : string) : string :=
  let result := "" in
  let result :=
    if Js.sneq prefix "" then
      let prefix :=
        if Js.seq (Js.charAt 0 prefix) "/" then Js.substring 1 prefix
        else prefix in
      result ++ prefix
    else result in
  let result := result ++ "/" in
  let result :=
    if Js.sneq path "" then
      let path :=
        if Js.seq (Js.charAt 0 path) "/" then Js.substring 1 path
        else path in
      result ++ path
    else result in
  if Js.sneq (Js.charAt 0 result) "/" then "/" ++ result
  else result.

(** The combiner as the specification words it. *)
Module PathSpec.

(** Strip at most one leading ['/']. *)
Definition stripLeadingSlash (s : string) : string :=
  match s with
  | String "/"%char r => r
  | _ => s
  end.

Definition startsWithSlash (s : string) : bool :=
  match s with
  | String "/"%char _ => true
  | _ => false
  end.

Definition combine (prefix path : string) : string :=
  let joined := stripLeadingSlash prefix ++ "/" ++ stripLeadingSlash path in
  if startsWithSlash joined then joined else "/" ++ joined.

End PathSpec.

Open Scope list_scope.

(** ** Async dispatch wrapper *)

Section Dispatch.

(** [Value] is a JavaScript value (rejection reasons, arguments of [next]);
    [W] is whatever a request handler can observe and change while it
    runs. *)
Variables Request Response Value W : Type.

(** The state of the promise an asynchronous function returns. *)
Inductive Promise : Type :=
| Fulfilled
| Rejected (reason : Value)
| Pending.

(** [NextFunction]: the framework's continuation, called with one value. *)
Definition NextFunction : Type := Value -> W -> W.

(** [async (req, res, next) => ...]: runs, and hands back its promise. *)
Definition AsyncFn : Type :=
  Request -> Response -> NextFunction -> W -> Promise * W.

(** [(req, res, next) => void]: what the framework router stores. *)
Definition RequestHandler : Type :=
  Request -> Response -> NextFunction -> W -> W.

(** [p.catch(onRejected)]: [onRejected] runs with the reason when [p]
    rejects, and not at all otherwise. *)
Definition catch (p : Promise) (onRejected : Value -> W -> W) : W -> W :=
  fun w =>
    match p with
    | Rejected reason => onRejected reason w
    | Fulfilled | Pending => w
    end.

(** [asyncHelper = (fn) => (req, res, next) =>
    { fn(req, res, next).catch(next); }] *)
Definition asyncHelper (fn : AsyncFn) : RequestHandler :=
  fun req res next w =>
    let (p, w1) := fn req res next w in
    catch p next w1.

End Dispatch.

Arguments Fulfilled {Value}.
Arguments Pending {Value}.

(** A [next] that records every value it is called with, in call order. *)
Definition recordingNext {Value : Type} : NextFunction Value (list Value) :=
  fun v calls => calls ++ [v].

(** The calls to [next] that the wrapper makes for a promise in state [p]. *)
Definition wrapperCalls {Value : Type} (p : Promise Value) : list Value :=
  match p with
  | Rejected e => [e]
  | Fulfilled | Pending => []
  end.

(** ** Registration-time effects *)

Section Registration.

(** Class references (modules, controllers and providers are all [any] in
    the source), method names, the [RequestMethod] enumeration of
    [../decorators], middleware functions, and the objects the injection
    library hands out. *)
Variables Class MethodName RequestMethod Middleware : Type.
Variables Request Response Value W : Type.
Variables ModuleInstance Injector Instance : Type.
Variables RouteStore MiddlewareStore : Type.

(** Modelled from the spec: the [CombineRoute] record of
    [./combine-route-with-middleware], with the attributes section 3 of
    the specification lists and the fields the source reads. *)
Record CombineRoute : Type := mkCombineRoute {
  isClass : bool;
  requestMethod : RequestMethod;
  path : string;
  methodName : MethodName;
  middlewares : list Middleware
}.

(** [ModuleMetadata]: both fields are read through [|| []]. *)
Record ModuleMetadata : Type := mkModuleMetadata {
  module_controllers : option (list Class);
  module_providers : option (list Class)
}.

(** [ExpressAppOption]: [imports?], [controllers?], [providers?]. *)
Record ExpressAppOption : Type := mkExpressAppOption {
  option_imports : option (list Class);
  option_controllers : option (list Class);
  option_providers : option (list Class)
}.

(** [getMetadataArgsStore()]: the fields read here. *)
Record MetadataArgsStore : Type := mkMetadataArgsStore {
  store_routes : RouteStore;
  store_middlewares : MiddlewareStore
}.

(** A function handed to the framework router: the chained middleware or
    the dispatching handler. *)
Inductive Callback : Type :=
| MiddlewareFn (m : Middleware)
| HandlerFn (h : RequestHandler Request Response Value W).

(** One call [app[verb](path, ...callbacks)]. *)
Record Registration : Type := mkRegistration {
  reg_method : RequestMethod;
  reg_path : string;
  reg_callbacks : list Callback
}.

(** What the injection library was asked to do.  Every [Created] event is
    one call of [resolveAndCreate], hence one new container. *)
Inductive InjectorEvent : Type :=
| Created (seed : list Class) (injector : Injector)
| Fetched (injector : Injector) (token : Class).

(** What is thrown. *)
Inductive Exception : Type :=
| Thrown (v : Value)
| TypeError (message : string).

(** Everything registration changes: the routing table behind the [app]
    handle, the injection library's history, and the module classes that
    were instantiated.  The source passes [app] along to every function;
    here it is the [router] component of the state they thread. *)
Record World : Type := mkWorld {
  router : list Registration;
  injection : list InjectorEvent;
  instantiated : list Class
}.

(** Statements that may throw and that change the world; the changes made
    before a throw stay. *)
Definition M (A : Type) : Type := World -> (Exception + A) * World.

Definition ret {A : Type} (a : A) : M A := fun w => (inr a, w).
Definition throw {A : Type} (e : Exception) : M A := fun w => (inl e, w).
Definition bind {A B : Type} (m : M A) (k : A -> M B) : M B :=
  fun w =>
    match m w with
    | (inr a, w1) => k a w1
    | (inl e, w1) => (inl e, w1)
    end.

Notation "x <- m ;; k" := (bind m (fun x => k))
  (at level 61, m at next level, right associativity).
Notation "m ;; k" := (bind m (fun _ => k))
  (at level 61, right associativity).

(** [xs.forEach(f)]: in index order, stopping at the first throw. *)
Fixpoint forEach {A : Type} (f : A -> M unit) (xs : list A) : M unit :=
  match xs with
  | [] => ret tt
  | x :: rest => f x ;; forEach f rest
  end.

(** *** The collaborators outside the source file

    The decorator metadata is collected before bootstrap and only read
    here; class constructors and the injection library are taken as
    functions of their arguments. *)
Variable construct : Class -> Exception + ModuleInstance.
Variable reflectModule : Class -> option ModuleMetadata.
Variable metadataArgsStore : MetadataArgsStore.
Variable combineRouteWithMiddleware :
  Class -> RouteStore -> MiddlewareStore -> list CombineRoute.
Variable combineMiddlewares : list Middleware -> Middleware.
Variable resolveAndCreate : list Class -> Exception + Injector.
Variable injectorGet : Injector -> Class -> Exception + Instance.
Variable instanceMethod :
  Instance -> MethodName -> AsyncFn Request Response Value W.

(** [new moduleClass()] *)
Definition createModuleInstance (moduleClass : Class) : M ModuleInstance :=
  fun w =>
    match construct moduleClass with
    | inr o =>
        (inr o, mkWorld (router w) (injection w)
                        (instantiated w ++ [moduleClass]))
    | inl e => (inl e, w)
    end.

(** [Reflect.getMetadata('module', moduleClass)] *)
Definition Reflect_getMetadata_module (moduleClass : Class)
  : M (option ModuleMetadata) :=
  ret (reflectModule moduleClass).

Definition getMetadataArgsStore : M MetadataArgsStore :=
  ret metadataArgsStore.

(** [ReflectiveInjector.resolveAndCreate(seed)] *)
Definition ReflectiveInjector_resolveAndCreate (seed : list Class)
  : M Injector :=
  fun w =>
    match resolveAndCreate seed with
    | inr inj =>
        (inr inj, mkWorld (router w) (injection w ++ [Created seed inj])
                          (instantiated w))
    | inl e => (inl e, w)
    end.

(** [injector.get(token)] *)
Definition Injector_get (inj : Injector) (token : Class) : M Instance :=
  fun w =>
    match injectorGet inj token with
    | inr o =>
        (inr o, mkWorld (router w) (injection w ++ [Fetched inj token])
                        (instantiated w))
    | inl e => (inl e, w)
    end.

(** [app[requestMethod](routePath, ...callbacks)] *)
Definition app_register (verb : RequestMethod) (routePath : string)
           (callbacks : list Callback) : M unit :=
  fun w =>
    (inr tt, mkWorld (router w ++ [mkRegistration verb routePath callbacks])
                     (injection w) (instantiated w)).

(** *** The source functions *)

(** [getPrefix]: [for (const i in routes) if (routes[i].isClass) return
    routes[i].path; return '';] *)
Fixpoint getPrefix (routes : list CombineRoute) : string :=
  match routes with
  | [] => ""
  | r :: rest => if isClass r then path r else getPrefix rest
  end.

(** [callInstance]: the awaited method call inside the [async] arrow
    settles the arrow's promise the way the method's own promise settles. *)
Definition callInstance (instance : Instance) (route : CombineRoute)
  : RequestHandler Request Response Value W :=
  asyncHelper
    (fun req res next =>
       instanceMethod instance (methodName route) req res next).

Definition addRouterToExpress (combinedRoutes : list CombineRoute)
           (controllerInstance : Instance) : M unit :=
  let prefix := getPrefix combinedRoutes in
  forEach
    (fun route =>
       if negb (isClass route) then
         let requestMethod := requestMethod route in
         let routePath := combineRouterPath prefix (path route) in
         if (0 <? List.length (middlewares route))%nat then
           let middleware := combineMiddlewares (middlewares route) in
           app_register requestMethod routePath
             [MiddlewareFn middleware;
              HandlerFn (callInstance controllerInstance route)]
         else
           app_register requestMethod routePath
             [HandlerFn (callInstance controllerInstance route)]
       else ret tt)
    combinedRoutes.

(** [module] is whatever [Reflect.getMetadata] returned; reading
    [.controllers] of [undefined] throws. [option?.providers] tolerates an
    absent [option]. *)
Definition addModuleToExpressApp (module : option ModuleMetadata)
           (option : option ExpressAppOption) : M unit :=
  store <- getMetadataArgsStore ;;
  match module with
  | None =>
      throw (TypeError "Cannot read properties of undefined")
  | Some module =>
      let controllers := Js.orEmpty (module_controllers module) in
      let providers := Js.orEmpty (module_providers module) in
      let globalProvidersClasses :=
        Js.orEmpty (match option with
                    | Some o => option_providers o
                    | None => None
                    end) in
      forEach
        (fun controller =>
           injector <- ReflectiveInjector_resolveAndCreate
                         ([controller] ++ providers
                                       ++ globalProvidersClasses) ;;
           controllerInstance <- Injector_get injector controller ;;
           let combinedRoutes :=
             combineRouteWithMiddleware controller (store_routes store)
                                        (store_middlewares store) in
           addRouterToExpress combinedRoutes controllerInstance)
        controllers
  end.

Definition useExpressServer (option : option ExpressAppOption) : M bool :=
  let controllerClasses :=
    Js.orEmpty (match option with
                | Some o => option_controllers o
                | None => None
                end) in
  let moduleClasses :=
    Js.orEmpty (match option with
                | Some o => option_imports o
                | None => None
                end) in
  forEach
    (fun moduleClass =>
       createModuleInstance moduleClass ;;
       module <- Reflect_getMetadata_module moduleClass ;;
       addModuleToExpressApp module option)
    moduleClasses ;;
  (if (0 <? List.length controllerClasses)%nat then
     addModuleToExpressApp
       (Some (mkModuleMetadata (Some controllerClasses) None)) option
   else ret tt) ;;
  ret true.

(** *** Vocabulary for the statements *)

(** The registration the specification asks for one method route: the verb
    of [requestMethod], the combined path, and the chained middleware in
    front of the handler exactly when the route has middlewares. *)
Definition expectedRegistration (prefix : string) (instance : Instance)
           (route : CombineRoute) : Registration :=
  mkRegistration
    (requestMethod route)
    (combineRouterPath prefix (path route))
    (match middlewares route with
     | [] => [HandlerFn (callInstance instance route)]
     | _ :: _ =>
         [MiddlewareFn (combineMiddlewares (middlewares route));
          HandlerFn (callInstance instance route)]
     end).

(** [containersFor providers globals controllers events]: [events] is, for
    each controller in order, the creation of one container seeded with
    [controller :: providers ++ globals] followed by the fetch of the
    controller from that same container. *)
Inductive containersFor (providers globals : list Class)
  : list Class -> list InjectorEvent -> Prop :=
| containersFor_nil : containersFor providers globals [] []
| containersFor_cons controller rest injector events :
    resolveAndCreate (controller :: providers ++ globals) = inr injector ->
    containersFor providers globals rest events ->
    containersFor providers globals (controller :: rest)
      (Created (controller :: providers ++ globals) injector
       :: Fetched injector controller :: events).

(** The same over a list of module classes, each with the controllers and
    providers of its own descriptor. *)
Inductive modulesFor (globals : list Class)
  : list Class -> list InjectorEvent -> Prop :=
| modulesFor_nil : modulesFor globals [] []
| modulesFor_cons moduleClass rest descriptor events events' :
    reflectModule moduleClass = Some descriptor ->
    containersFor (Js.orEmpty (module_providers descriptor)) globals
                  (Js.orEmpty (module_controllers descriptor)) events ->
    modulesFor globals rest events' ->
    modulesFor globals (moduleClass :: rest) (events ++ events').

(** [option?.providers || []] *)
Definition globalProviders (option : option ExpressAppOption) : list Class :=
  Js.orEmpty (match option with
              | Some o => option_providers o
              | None => None
              end).

(** A world extended by the changes recorded in another. *)
Definition extend (w d : World) : World :=
  mkWorld (router w ++ router d) (injection w ++ injection d)
          (instantiated w ++ instantiated d).

Definition unchanged : World := mkWorld [] [] [].

(** [m] throws or returns the same thing from every world, and only adds
    [d] to the world it starts from. *)
Definition adds {A : Type} (m : M A) (r : Exception + A) (d : World) : Prop :=
  forall w, m w = (r, extend w d).

Definition uniform {A : Type} (m : M A) : Prop :=
  exists r d, adds m r d.

(** The registrations one controller contributes when its container is
    created and the controller fetched: its method routes under its own
    prefix, bound to the fetched instance.  Nothing when either step
    throws. *)
Definition controllerRoutes (providers globals : list Class)
           (controller : Class) : list Registration :=
  match resolveAndCreate ([controller] ++ providers ++ globals) with
  | inr injector =>
      match injectorGet injector controller with
      | inr instance =>
          let routes :=
            combineRouteWithMiddleware controller
              (store_routes metadataArgsStore)
              (store_middlewares metadataArgsStore) in
          map (expectedRegistration (getPrefix routes) instance)
              (filter (fun r => negb (isClass r)) routes)
      | inl _ => []
      end
  | inl _ => []
  end.

(** The same for every controller of a module class, in order. *)
Definition moduleRoutes (globals : list Class) (moduleClass : Class)
  : list Registration :=
  match reflectModule moduleClass with
  | Some descriptor =>
      flat_map (controllerRoutes (Js.orEmpty (module_providers descriptor))
                                 globals)
               (Js.orEmpty (module_controllers descriptor))
  | None => []
  end.

(** Every path in the routing table has ['/'] as its first unit. *)
Definition absolutePaths (w : World) : Prop :=
  Forall (fun r => Js.charAt 0 (reg_path r) = "/") (router w).

(** [m] keeps [P], whether it returns or throws. *)
Definition keeps {A : Type} (P : World -> Prop) (m : M A) : Prop :=
  forall w, P w -> P (snd (m w)).

End Registration.

Arguments MiddlewareFn {Middleware Request Response Value W} m.
Arguments HandlerFn {Middleware Request Response Value W} h.
Arguments TypeError {Value} message.

(** ** A small application, for evaluating the definitions *)

Module Demo.

Inductive Class : Type :=
| UserModule | UserController | UserService
| HealthController | Logger | PlainClass.

Inductive MethodName : Type := getUser | createUser | ping.

Inductive RequestMethod : Type := GET | POST.

(** A middleware is named by the functions it runs, in order. *)
Definition Middleware : Type := list string.
Definition Auth : Middleware := ["auth"].
Definition Audit : Middleware := ["audit"].

Definition Route : Type := CombineRoute MethodName RequestMethod Middleware.
Definition Handler : Type := RequestHandler unit unit string (list string).
Definition State : Type :=
  World Class RequestMethod Middleware unit unit string (list string)
        (list Class).

(** [UserController]: prefix [/users], [GET /:id] without middleware and
    [POST /] behind two middlewares.  [HealthController] has no class
    entry. *)
Definition userRoutes : list Route :=
  [ mkCombineRoute false GET "/:id" getUser [];
    mkCombineRoute true GET "/users" getUser [];
    mkCombineRoute false POST "/" createUser [Auth; Audit];
    mkCombineRoute true GET "/ignored" getUser [] ].

Definition healthRoutes : list Route :=
  [ mkCombineRoute false GET "ping" ping [];
    mkCombineRoute false GET "/live" ping [Auth] ].

Definition construct (c : Class) : Exception string + unit := inr tt.

Definition reflectModule (c : Class) : option (ModuleMetadata Class) :=
  match c with
  | UserModule =>
      Some (mkModuleMetadata (Some [UserController]) (Some [UserService]))
  | _ => None
  end.

Definition store : MetadataArgsStore unit unit := mkMetadataArgsStore tt tt.

Definition combineRouteWithMiddleware (c : Class) (_ _ : unit)
  : list Route :=
  match c with
  | UserController => userRoutes
  | HealthController => healthRoutes
  | _ => []
  end.

Definition combineMiddlewares (ms : list Middleware) : Middleware :=
  List.concat ms.

Definition resolveAndCreate (seed : list Class)
  : Exception string + list Class := inr seed.

Definition injectorGet (inj : list Class) (token : Class)
  : Exception string + Class := inr token.

(** [getUser] rejects after calling [next] itself; the others resolve. *)
Definition instanceMethod (instance : Class) (m : MethodName)
  : AsyncFn unit unit string (list string) :=
  fun _ _ next w =>
    match m with
    | getUser => (Rejected "not found", next "from the method" w)
    | createUser => (Fulfilled, w)
    | ping => (Pending, w)
    end.

Definition start : State := mkWorld [] [] [].

Definition options : ExpressAppOption Class :=
  mkExpressAppOption (Some [UserModule]) (Some [HealthController])
                     (Some [Logger]).

Definition bootstrap (o : option (ExpressAppOption Class))
  : State -> (Exception string + bool) * State :=
  useExpressServer construct reflectModule store combineRouteWithMiddleware
                   combineMiddlewares resolveAndCreate injectorGet
                   instanceMethod o.

Definition register (routes : list Route) (instance : Class)
  : State -> (Exception string + unit) * State :=
  addRouterToExpress combineMiddlewares instanceMethod routes instance.

Definition addModule (md : option (ModuleMetadata Class))
           (o : option (ExpressAppOption Class))
  : State -> (Exception string + unit) * State :=
  addModuleToExpressApp store combineRouteWithMiddleware combineMiddlewares
                        resolveAndCreate injectorGet instanceMethod md o.

(** The world after one bootstrap, and after a second one on top. *)
Definition once : State := snd (bootstrap (Some options) start).
Definition twice : State := snd (bootstrap (Some options) once).

(** What the first bootstrap returned ([false] if it threw). *)
Definition returned : bool :=
  match fst (bootstrap (Some options) start) with
  | inr b => b
  | inl _ => false
  end.

(** The first entry of [userRoutes], and the registration it gives. *)
Definition getUserRoute : Route :=
  mkCombineRoute false GET "/:id" getUser [].

Definition getUserRegistration
  : Registration RequestMethod Middleware unit unit string (list string) :=
  mkRegistration GET "/users/:id"
    [HandlerFn (callInstance instanceMethod UserController getUserRoute)].

(** A controller whose route list holds class entries only. *)
Definition prefixOnly : list Route :=
  [ mkCombineRoute true GET "/admin" getUser [];
    mkCombineRoute true POST "/other" ping [Auth] ].







End Demo.

(** * Properties *)

(** ** Path combiner *)

Lemma append_empty_r (s : string) : (s ++ "")%string = s.
Proof.
  induction s as [|c s IH]; simpl; [reflexivity | now rewrite IH].
Qed.

Lemma append_reassoc (a b c : string) :
  ((a ++ b) ++ c)%string = (a ++ b ++ c)%string.
Proof.
  induction a as [|x a IH]; simpl; [reflexivity | now rewrite IH].
Qed.

Lemma strip_step (s : string) :
  (if Js.seq (Js.charAt 0 s) "/" then Js.substring 1 s else s)
  = PathSpec.stripLeadingSlash s.
Proof.
  destruct s as [|[[] [] [] [] [] [] [] []] r]; reflexivity.
Qed.

Lemma first_unit_test (s : string) :
  Js.sneq (Js.charAt 0 s) "/" = negb (PathSpec.startsWithSlash s).
Proof.
  destruct s as [|[[] [] [] [] [] [] [] []] r]; reflexivity.
Qed.

Lemma startsWithSlash_inv (s : string) :
  PathSpec.startsWithSlash s = true -> exists r, s = String "/" r.
Proof.
  destruct s as [|[[] [] [] [] [] [] [] []] r]; simpl; try discriminate.
  intros _. now exists r.
Qed.

(** The guard [s !== ''] around a strip-and-append changes nothing: the
    empty string strips to itself and appends as nothing. *)
Lemma guarded_append (acc s : string) :
  (if Js.sneq s "" then (acc ++ PathSpec.stripLeadingSlash s)%string else acc)
  = (acc ++ PathSpec.stripLeadingSlash s)%string.
Proof.
  destruct s as [|c r]; simpl; [now rewrite append_empty_r | reflexivity].
Qed.

Lemma combineRouterPath_eq (prefix path : string) :
  combineRouterPath prefix path = PathSpec.combine prefix path.
Proof.
  unfold combineRouterPath, PathSpec.combine.
  rewrite !strip_step, !guarded_append, first_unit_test, append_reassoc.
  simpl. now destruct (PathSpec.startsWithSlash _).
Qed.

(** C2: [combineRouterPath] is the specified strip / join / prepend
    function on every pair of strings, and takes the three listed values. *)
Theorem combineRouterPath_refines_spec :
  (forall prefix path : string,
      combineRouterPath prefix path
      = (let strippedPrefix := PathSpec.stripLeadingSlash prefix in
         let strippedPath := PathSpec.stripLeadingSlash path in
         let joined := (strippedPrefix ++ "/" ++ strippedPath)%string in
         if PathSpec.startsWithSlash joined then joined
         else ("/" ++ joined)%string))
  /\ combineRouterPath "" "" = "/"
  /\ combineRouterPath "" "x" = "/x"
  /\ combineRouterPath "/a/" "b" = "/a//b".
Proof.
  split; [exact combineRouterPath_eq | repeat split].
Qed.

(** C3: the combined path always has ['/'] as its first unit, so it is
    never empty. *)
Theorem combineRouterPath_starts_with_slash :
  forall prefix path : string,
    Js.charAt 0 (combineRouterPath prefix path) = "/"
    /\ combineRouterPath prefix path <> "".
Proof.
  intros prefix path. rewrite combineRouterPath_eq. unfold PathSpec.combine.
  destruct (PathSpec.startsWithSlash _) eqn:E.
  - apply startsWithSlash_inv in E. destruct E as [r ->].
    split; [reflexivity | discriminate].
  - split; [reflexivity | discriminate].
Qed.

Lemma combineRouterPath_empty_prefix (p : string) :
  combineRouterPath "" p = ("/" ++ PathSpec.stripLeadingSlash p)%string.
Proof.
  rewrite combineRouterPath_eq. reflexivity.
Qed.

(** C9: with the empty prefix, a path that begins with ['/'] but not with
    ["//"] comes back unchanged. *)
Theorem combineRouterPath_empty_prefix_identity :
  forall p : string,
    String.prefix "/" p = true ->
    String.prefix "//" p = false ->
    combineRouterPath "" p = p.
Proof.
  intros p Hslash _. rewrite combineRouterPath_empty_prefix.
  destruct p as [|[[] [] [] [] [] [] [] []] r];
    try (cbv in Hslash; discriminate Hslash).
  reflexivity.
Qed.

Lemma combineRouterPath_empty_prefix_identity_witness :
  String.prefix "/" "/users" = true
  /\ String.prefix "//" "/users" = false
  /\ combineRouterPath "" "/users" = "/users".
Proof.
  split; [reflexivity | split; [reflexivity|]].
  apply (combineRouterPath_empty_prefix_identity "/users"); reflexivity.
Defined.

(** *** Further properties of the path combiner *)

Lemma combine_of_absolute (s : string) :
  PathSpec.startsWithSlash s = true -> combineRouterPath "" s = s.
Proof.
  intros H. apply startsWithSlash_inv in H. destruct H as [r ->].
  now rewrite combineRouterPath_empty_prefix.
Qed.

Lemma combine_absolute (prefix path : string) :
  PathSpec.startsWithSlash (combineRouterPath prefix path) = true.
Proof.
  rewrite combineRouterPath_eq. unfold PathSpec.combine.
  destruct (PathSpec.startsWithSlash (_ ++ _)) eqn:E;
    [exact E | reflexivity].
Qed.

Lemma strip_not_slash (s : string) :
  PathSpec.startsWithSlash s = false -> PathSpec.stripLeadingSlash s = s.
Proof.
  destruct s as [|[[] [] [] [] [] [] [] []] r]; simpl;
    try reflexivity; discriminate.
Qed.

(** X1: a leading ['/'] on either argument is optional: a prefix, or a
    path, that does not begin with ['/'] combines to the same result with
    one put in front of it. *)
Theorem combineRouterPath_leading_slash_optional :
  (forall prefix path : string,
      PathSpec.startsWithSlash prefix = false ->
      combineRouterPath ("/" ++ prefix) path = combineRouterPath prefix path)
  /\ (forall prefix path : string,
         PathSpec.startsWithSlash path = false ->
         combineRouterPath prefix ("/" ++ path)
         = combineRouterPath prefix path).
Proof.
  split; intros prefix path H; rewrite !combineRouterPath_eq;
    unfold PathSpec.combine; cbn [PathSpec.stripLeadingSlash append];
    now rewrite (strip_not_slash _ H).
Qed.

Lemma combineRouterPath_leading_slash_optional_witness :
  combineRouterPath "/users" ":id" = combineRouterPath "users" ":id"
  /\ combineRouterPath "users" "/:id" = combineRouterPath "users" ":id".
Proof.
  split.
  - apply (proj1 combineRouterPath_leading_slash_optional "users" ":id").
    reflexivity.
  - apply (proj2 combineRouterPath_leading_slash_optional "users" ":id").
    reflexivity.
Defined.

(** X2: an empty route path and the route path ["/"] combine to the same
    result under every prefix, and that result ends in ['/']. *)
Theorem combineRouterPath_empty_path_trailing_slash :
  forall prefix : string,
    combineRouterPath prefix "" = combineRouterPath prefix "/"
    /\ exists head, combineRouterPath prefix "" = (head ++ "/")%string.
Proof.
  intros prefix. split.
  - now rewrite !combineRouterPath_eq.
  - rewrite combineRouterPath_eq. unfold PathSpec.combine.
    cbn [PathSpec.stripLeadingSlash].
    destruct (PathSpec.startsWithSlash _).
    + now exists (PathSpec.stripLeadingSlash prefix).
    + now exists ("/" ++ PathSpec.stripLeadingSlash prefix)%string.
Qed.

(** X3: combining the empty prefix with an already combined path gives
    that path back. *)
Theorem combineRouterPath_renormalise :
  forall prefix path : string,
    combineRouterPath "" (combineRouterPath prefix path)
    = combineRouterPath prefix path.
Proof.
  intros prefix path. apply combine_of_absolute, combine_absolute.
Qed.

Lemma starts_cons_append (x : ascii) (r t : string) :
  PathSpec.startsWithSlash (String x r ++ t)
  = PathSpec.startsWithSlash (String x r).
Proof.
  destruct x as [[] [] [] [] [] [] [] []]; reflexivity.
Qed.

(** X4: nesting is associative for well-formed segments: when neither
    [a] nor [b] begins with two slashes and [b] is more than a bare
    ['/'], combining [a] with the combination of [b] and [c] equals
    combining the combination of [a] and [b] with [c]. *)
Theorem combineRouterPath_nested :
  forall a b c : string,
    PathSpec.startsWithSlash (PathSpec.stripLeadingSlash a) = false ->
    PathSpec.startsWithSlash (PathSpec.stripLeadingSlash b) = false ->
    PathSpec.stripLeadingSlash b <> "" ->
    combineRouterPath (combineRouterPath a b) c
    = combineRouterPath a (combineRouterPath b c).
Proof.
  intros a b c Ha Hb Hne. rewrite !combineRouterPath_eq.
  assert (Hbc : PathSpec.combine b c
                = ("/" ++ PathSpec.stripLeadingSlash b ++ "/"
                       ++ PathSpec.stripLeadingSlash c)%string).
  { unfold PathSpec.combine.
    destruct (PathSpec.stripLeadingSlash b) as [|x r]; [contradiction|].
    now rewrite starts_cons_append, Hb. }
  rewrite Hbc.
  set (sb := PathSpec.stripLeadingSlash b) in *.
  set (sc := PathSpec.stripLeadingSlash c) in *.
  destruct (PathSpec.stripLeadingSlash a) as [|y ra] eqn:Hsa.
  - assert (Hab : PathSpec.combine a b = ("/" ++ sb)%string).
    { unfold PathSpec.combine. now rewrite Hsa. }
    rewrite Hab. unfold PathSpec.combine at 2. rewrite Hsa.
    cbn [PathSpec.stripLeadingSlash PathSpec.startsWithSlash append].
    unfold PathSpec.combine. cbn [PathSpec.stripLeadingSlash append].
    fold sc. destruct sb as [|x r]; [contradiction|].
    now rewrite starts_cons_append, Hb.
  - assert (Hab : PathSpec.combine a b
                  = ("/" ++ String y ra ++ "/" ++ sb)%string).
    { unfold PathSpec.combine. fold sb.
      now rewrite Hsa, starts_cons_append, Ha. }
    rewrite Hab. unfold PathSpec.combine. rewrite Hsa.
    cbn [PathSpec.stripLeadingSlash].
    change ("/" ++ String y ra ++ "/" ++ sb)%string
      with (String "/" (String y ra ++ "/" ++ sb)).
    change ("/" ++ sb ++ "/" ++ sc)%string
      with (String "/" (sb ++ "/" ++ sc)).
    cbn [PathSpec.stripLeadingSlash]. fold sc.
    rewrite !append_reassoc, !starts_cons_append, Ha.
    reflexivity.
Qed.

Lemma combineRouterPath_nested_witness :
  combineRouterPath (combineRouterPath "/api" "users") "/:id"
  = combineRouterPath "/api" (combineRouterPath "users" "/:id").
Proof.
  apply (combineRouterPath_nested "/api" "users" "/:id");
    [reflexivity | reflexivity | discriminate].
Defined.

(** ** Async dispatch wrapper *)

(** C1: run against a [next] that records its calls, the wrapper leaves the
    record exactly as the wrapped function left it when the promise
    resolves, and adds exactly one entry, the rejection reason, when it
    rejects. *)
Theorem asyncHelper_next_calls :
  forall (Request Response Value : Type)
         (fn : AsyncFn Request Response Value (list Value))
         (req : Request) (res : Response) (calls : list Value),
    let settled := fst (fn req res recordingNext calls) in
    let afterFn := snd (fn req res recordingNext calls) in
    let afterWrapper := asyncHelper fn req res recordingNext calls in
    afterWrapper = afterFn ++ wrapperCalls settled
    /\ (settled = Fulfilled -> afterWrapper = afterFn)
    /\ (forall E, settled = Rejected E -> afterWrapper = afterFn ++ [E]).
Proof.
  intros Request Response Value fn req res calls. cbv zeta.
  unfold asyncHelper. destruct (fn req res recordingNext calls) as [p w1].
  cbn [fst snd]. repeat split.
  - destruct p; cbn; try reflexivity; now rewrite app_nil_r.
  - now intros ->.
  - now intros E ->.
Qed.

Lemma asyncHelper_next_calls_witness :
  asyncHelper (Demo.instanceMethod Demo.UserController Demo.getUser)
              tt tt recordingNext []
  = ["from the method"; "not found"]
  /\ asyncHelper (Demo.instanceMethod Demo.UserController Demo.createUser)
                 tt tt recordingNext ["earlier"]
     = ["earlier"].
Proof.
  split.
  - apply (proj2 (proj2 (asyncHelper_next_calls
                           (Demo.instanceMethod Demo.UserController
                                                Demo.getUser)
                           tt tt []))).
    reflexivity.
  - apply (proj1 (proj2 (asyncHelper_next_calls
                           (Demo.instanceMethod Demo.UserController
                                                Demo.createUser)
                           tt tt ["earlier"]))).
    reflexivity.
Defined.

(** ** Prefix lookup, route registrar and bootstrap *)

Section RegistrationProperties.

Variables Class MethodName RequestMethod Middleware : Type.
Variables Request Response Value W : Type.
Variables ModuleInstance Injector Instance : Type.
Variables RouteStore MiddlewareStore : Type.

Variable construct : Class -> Exception Value + ModuleInstance.
Variable reflectModule : Class -> option (ModuleMetadata Class).
Variable metadataArgsStore : MetadataArgsStore RouteStore MiddlewareStore.
Variable combineRouteWithMiddleware :
  Class -> RouteStore -> MiddlewareStore ->
  list (CombineRoute MethodName RequestMethod Middleware).
Variable combineMiddlewares : list Middleware -> Middleware.
Variable resolveAndCreate : list Class -> Exception Value + Injector.
Variable injectorGet : Injector -> Class -> Exception Value + Instance.
Variable instanceMethod :
  Instance -> MethodName -> AsyncFn Request Response Value W.

Local Notation State :=
  (World Class RequestMethod Middleware Request Response Value W Injector).
Local Notation Route := (CombineRoute MethodName RequestMethod Middleware).
Local Notation Eff :=
  (M Class RequestMethod Middleware Request Response Value W Injector).
Local Notation registrar :=
  (@addRouterToExpress Class MethodName RequestMethod Middleware Request
     Response Value W Injector Instance combineMiddlewares instanceMethod).
Local Notation expected :=
  (expectedRegistration combineMiddlewares instanceMethod).
Local Notation addModule :=
  (addModuleToExpressApp metadataArgsStore combineRouteWithMiddleware
     combineMiddlewares resolveAndCreate injectorGet instanceMethod).
Local Notation bootstrap :=
  (useExpressServer construct reflectModule metadataArgsStore
     combineRouteWithMiddleware combineMiddlewares resolveAndCreate
     injectorGet instanceMethod).

(** *** Prefix lookup *)

Lemma getPrefix_skips (before rest : list Route) :
  (forall x, In x before -> isClass x = false) ->
  getPrefix (before ++ rest) = getPrefix rest.
Proof.
  induction before as [|b before IH]; intros Hno; [reflexivity|].
  simpl. rewrite (Hno b (or_introl eq_refl)).
  apply IH. intros x Hx. apply Hno. now right.
Qed.

Lemma getPrefix_none (routes : list Route) :
  (forall x, In x routes -> isClass x = false) -> getPrefix routes = "".
Proof.
  intros Hno. rewrite <- (app_nil_r routes). now rewrite getPrefix_skips.
Qed.

(** C6: [getPrefix] returns the path of the first entry, in list order,
    whose [isClass] flag is set, and the empty string when no entry has
    it set (the empty list included). *)
Theorem getPrefix_first_class :
  forall routes : list Route,
    (forall before r after,
        routes = before ++ r :: after ->
        (forall x, In x before -> isClass x = false) ->
        isClass r = true ->
        getPrefix routes = path r)
    /\ ((forall x, In x routes -> isClass x = false) ->
        getPrefix routes = "").
Proof.
  intros routes. split.
  - intros before r after -> Hno Hr.
    rewrite getPrefix_skips by exact Hno. simpl. now rewrite Hr.
  - apply getPrefix_none.
Qed.

(** *** Route registrar *)

Lemma state_eta (w : State) :
  mkWorld (router w) (injection w) (instantiated w) = w.
Proof. now destruct w. Qed.

Lemma bind_ret {A B : Type} (a : A) (k : A -> Eff B) (w : State) :
  bind (ret a) k w = k a w.
Proof. reflexivity. Qed.

Lemma bind_register {B : Type} (verb : RequestMethod) (routePath : string)
      (callbacks : list (Callback Middleware Request Response Value W))
      (k : unit -> Eff B) (w : State) :
  bind (app_register verb routePath callbacks) k w
  = k tt (mkWorld (router w ++ [mkRegistration verb routePath callbacks])
                  (injection w) (instantiated w)).
Proof. reflexivity. Qed.

Lemma expected_callbacks (prefix : string) (instance : Instance) (r : Route) :
  expected prefix instance r
  = mkRegistration
      (requestMethod r) (combineRouterPath prefix (path r))
      (if (0 <? List.length (middlewares r))%nat
       then [MiddlewareFn (combineMiddlewares (middlewares r));
             HandlerFn (callInstance instanceMethod instance r)]
       else [HandlerFn (callInstance instanceMethod instance r)]).
Proof.
  unfold expectedRegistration. now destruct (middlewares r).
Qed.

(** The loop of [addRouterToExpress] for a prefix fixed beforehand. *)
Lemma registrar_loop (prefix : string) (instance : Instance)
      (routes : list Route) (w : State) :
  forEach
    (fun route : Route =>
       if negb (isClass route) then
         if (0 <? List.length (middlewares route))%nat then
           app_register (requestMethod route)
             (combineRouterPath prefix (path route))
             [MiddlewareFn (combineMiddlewares (middlewares route));
              HandlerFn (callInstance instanceMethod instance route)]
         else
           app_register (requestMethod route)
             (combineRouterPath prefix (path route))
             [HandlerFn (callInstance instanceMethod instance route)]
       else ret tt)
    routes w
  = (inr tt,
     mkWorld
       (router w
        ++ map (expected prefix instance)
               (filter (fun r => negb (isClass r)) routes))
       (injection w) (instantiated w)).
Proof.
  revert w. induction routes as [|r routes IH]; intros w.
  - simpl. unfold ret. now rewrite app_nil_r, state_eta.
  - cbn [forEach filter].
    destruct (isClass r); cbn [negb].
    + rewrite bind_ret. apply IH.
    + cbn [map]. rewrite (expected_callbacks prefix instance r).
      destruct (0 <? List.length (middlewares r))%nat;
        rewrite bind_register, IH;
        cbn [router injection instantiated];
        now rewrite <- app_assoc.
Qed.

Lemma registrar_run (routes : list Route) (instance : Instance) (w : State) :
  registrar routes instance w
  = (inr tt,
     mkWorld
       (router w
        ++ map (expected (getPrefix routes) instance)
               (filter (fun r => negb (isClass r)) routes))
       (injection w) (instantiated w)).
Proof.
  unfold addRouterToExpress. apply registrar_loop.
Qed.

(** C4: the registrar adds to the routing table, after what was there,
    one registration per entry whose [isClass] is false and none for the
    others, in list order, each under the entry's verb at
    [combineRouterPath prefix path]; the chained middleware is among the
    callbacks exactly when the entry has middlewares.  Nothing else
    changes and nothing is thrown. *)
Theorem addRouterToExpress_registers :
  forall (routes : list Route) (instance : Instance) (w : State),
    let prefix := getPrefix routes in
    registrar routes instance w
    = (inr tt,
       mkWorld
         (router w
          ++ map (fun r =>
                    mkRegistration
                      (requestMethod r)
                      (combineRouterPath prefix (path r))
                      (reg_callbacks (expected prefix instance r)))
                 (filter (fun r => negb (isClass r)) routes))
         (injection w) (instantiated w))
    /\ (forall r : Route,
           reg_callbacks (expected prefix instance r)
           = (if (0 <? List.length (middlewares r))%nat
              then [MiddlewareFn (combineMiddlewares (middlewares r))]
              else [])
             ++ [HandlerFn (callInstance instanceMethod instance r)]).
Proof.
  intros routes instance w prefix. split.
  - apply registrar_run.
  - intros r. unfold expectedRegistration. cbn [reg_callbacks].
    now destruct (middlewares r).
Qed.

Lemma filter_all (routes : list Route) :
  (forall r, In r routes -> isClass r = false) ->
  filter (fun r => negb (isClass r)) routes = routes.
Proof.
  induction routes as [|r routes IH]; intros Hno; [reflexivity|].
  simpl. rewrite (Hno r (or_introl eq_refl)). simpl. f_equal.
  apply IH. intros x Hx. apply Hno. now right.
Qed.

(** C10: when no entry is a class entry, nothing is thrown, the prefix is
    the empty string and every route is registered, in order, at ['/']
    followed by its own path less at most one leading ['/']. *)
Theorem addRouterToExpress_without_prefix_entry :
  forall (routes : list Route) (instance : Instance) (w : State),
    (forall r, In r routes -> isClass r = false) ->
    getPrefix routes = ""
    /\ registrar routes instance w
       = (inr tt,
          mkWorld
            (router w
             ++ map (fun r =>
                       mkRegistration
                         (requestMethod r)
                         ("/" ++ PathSpec.stripLeadingSlash (path r))%string
                         (reg_callbacks (expected "" instance r)))
                    routes)
            (injection w) (instantiated w)).
Proof.
  intros routes instance w Hno. split; [now apply getPrefix_none|].
  rewrite registrar_run, (getPrefix_none _ Hno), (filter_all _ Hno).
  do 3 f_equal. apply map_ext. intros r.
  unfold expectedRegistration. cbn [reg_callbacks].
  now rewrite combineRouterPath_empty_prefix.
Qed.

(** *** Sequencing *)

Lemma bind_returns {A B : Type} (m : Eff A) (k : A -> Eff B)
      (w w' : State) (b : B) :
  bind m k w = (inr b, w') ->
  exists a w1, m w = (inr a, w1) /\ k a w1 = (inr b, w').
Proof.
  unfold bind. destruct (m w) as [[e|a] w1]; [discriminate|].
  intros H. now exists a, w1.
Qed.

Lemma extend_unchanged (w : State) : extend w (unchanged _ _ _ _ _ _ _ _) = w.
Proof.
  destruct w. unfold extend. simpl. now rewrite !app_nil_r.
Qed.

Lemma extend_extend (w d1 d2 : State) :
  extend (extend w d1) d2 = extend w (extend d1 d2).
Proof.
  unfold extend. simpl. now rewrite !app_assoc.
Qed.

Lemma uniform_ret {A : Type} (a : A) : uniform (ret a : Eff A).
Proof.
  exists (inr a), (unchanged _ _ _ _ _ _ _ _). intros w.
  now rewrite extend_unchanged.
Qed.

Lemma uniform_throw {A : Type} (e : Exception Value) :
  uniform (throw e : Eff A).
Proof.
  exists (inl e), (unchanged _ _ _ _ _ _ _ _). intros w.
  now rewrite extend_unchanged.
Qed.

Lemma uniform_bind {A B : Type} (m : Eff A) (k : A -> Eff B) :
  uniform m -> (forall a, uniform (k a)) -> uniform (bind m k).
Proof.
  intros (r & d & Hm) Hk. destruct r as [e|a].
  - exists (inl e), d. intros w. unfold bind. now rewrite Hm.
  - destruct (Hk a) as (r2 & d2 & H2).
    exists r2, (extend d d2). intros w. unfold bind.
    now rewrite Hm, H2, extend_extend.
Qed.

Lemma uniform_forEach {A : Type} (f : A -> Eff unit) (xs : list A) :
  (forall x, uniform (f x)) -> uniform (forEach f xs).
Proof.
  intros Hf. induction xs as [|x xs IH]; simpl.
  - apply uniform_ret.
  - apply uniform_bind; [apply Hf | intros _; exact IH].
Qed.

Lemma uniform_createModuleInstance (c : Class) :
  uniform (createModuleInstance construct c
           : Eff ModuleInstance).
Proof.
  unfold createModuleInstance. destruct (construct c) as [e|o].
  - exists (inl e), (unchanged _ _ _ _ _ _ _ _). intros w.
    now rewrite extend_unchanged.
  - exists (inr o), (mkWorld [] [] [c]). intros w.
    unfold extend. simpl. now rewrite !app_nil_r.
Qed.

Lemma uniform_resolveAndCreate (seed : list Class) :
  uniform (ReflectiveInjector_resolveAndCreate resolveAndCreate seed
           : Eff Injector).
Proof.
  unfold ReflectiveInjector_resolveAndCreate.
  destruct (resolveAndCreate seed) as [e|inj].
  - exists (inl e), (unchanged _ _ _ _ _ _ _ _). intros w.
    now rewrite extend_unchanged.
  - exists (inr inj), (mkWorld [] [Created seed inj] []). intros w.
    unfold extend. simpl. now rewrite !app_nil_r.
Qed.

Lemma uniform_Injector_get (inj : Injector) (token : Class) :
  uniform (Injector_get injectorGet inj token : Eff Instance).
Proof.
  unfold Injector_get. destruct (injectorGet inj token) as [e|o].
  - exists (inl e), (unchanged _ _ _ _ _ _ _ _). intros w.
    now rewrite extend_unchanged.
  - exists (inr o), (mkWorld [] [Fetched inj token] []). intros w.
    unfold extend. simpl. now rewrite !app_nil_r.
Qed.

Lemma uniform_registrar (routes : list Route) (instance : Instance) :
  uniform (registrar routes instance).
Proof.
  exists (inr tt),
    (mkWorld (map (expected (getPrefix routes) instance)
                  (filter (fun r => negb (isClass r)) routes)) [] []).
  intros w. rewrite registrar_run. unfold extend. simpl.
  now rewrite !app_nil_r.
Qed.

Lemma uniform_addModule (module : option (ModuleMetadata Class))
      (option : option (ExpressAppOption Class)) :
  uniform (addModule module option : Eff unit).
Proof.
  unfold addModuleToExpressApp. apply uniform_bind; [apply uniform_ret|].
  intros store. destruct module as [module|]; [|apply uniform_throw].
  apply uniform_forEach. intros controller.
  apply uniform_bind; [apply uniform_resolveAndCreate|]. intros inj.
  apply uniform_bind; [apply uniform_Injector_get|]. intros instance.
  apply uniform_registrar.
Qed.

Lemma uniform_bootstrap (option : option (ExpressAppOption Class)) :
  uniform (bootstrap option).
Proof.
  unfold useExpressServer. apply uniform_bind.
  - apply uniform_forEach. intros moduleClass.
    apply uniform_bind; [apply uniform_createModuleInstance|]. intros _.
    apply uniform_bind; [apply uniform_ret|]. intros module.
    apply uniform_addModule.
  - intros _. apply uniform_bind.
    + destruct (0 <? _)%nat; [apply uniform_addModule | apply uniform_ret].
    + intros _. apply uniform_ret.
Qed.

(** *** Bootstrap *)

(** C7: when a call of [useExpressServer] completes, a second call with
    the same options on the same application completes as well and adds
    the same registrations once more after the first ones: the routing
    table then holds every registration of the run twice. *)
Theorem useExpressServer_twice_registers_twice :
  forall (option : option (ExpressAppOption Class)) (w w1 : State),
    bootstrap option w = (inr true, w1) ->
    exists added,
      router w1 = router w ++ added
      /\ exists w2,
          bootstrap option w1 = (inr true, w2)
          /\ router w2 = router w ++ added ++ added.
Proof.
  intros option w w1 H1.
  destruct (uniform_bootstrap option) as (r & d & Hadds).
  rewrite Hadds in H1. injection H1 as -> <-.
  exists (router d). split; [reflexivity|].
  exists (extend (extend w d) d). split; [apply Hadds|].
  simpl. now rewrite app_assoc.
Qed.

(** C8: a call of [useExpressServer] that completes returns [true],
    whatever the options are, absent ones included. *)
Theorem useExpressServer_returns_true :
  forall (option : option (ExpressAppOption Class)) (w w' : State)
         (result : bool),
    bootstrap option w = (inr result, w') -> result = true.
Proof.
  intros option w w' result H. unfold useExpressServer in H.
  apply bind_returns in H. destruct H as (_ & w1 & _ & H).
  apply bind_returns in H. destruct H as (_ & w2 & _ & H).
  unfold ret in H. now inversion H.
Qed.

(** *** Controller instantiation *)

(** The controller loop of [addModuleToExpressApp]. *)
Lemma controllers_loop (store : MetadataArgsStore RouteStore MiddlewareStore)
      (providers globals controllers : list Class) (w w' : State) :
  forEach
    (fun controller =>
       bind (ReflectiveInjector_resolveAndCreate resolveAndCreate
               ([controller] ++ providers ++ globals))
            (fun injector =>
               bind (Injector_get injectorGet injector controller)
                    (fun controllerInstance =>
                       registrar
                         (combineRouteWithMiddleware controller
                            (store_routes store) (store_middlewares store))
                         controllerInstance)))
    controllers w
  = (inr tt, w') ->
  exists events,
    containersFor resolveAndCreate providers globals controllers events
    /\ injection w' = injection w ++ events.
Proof.
  revert w. induction controllers as [|c rest IH]; intros w H.
  - simpl in H. unfold ret in H. inversion H; subst.
    exists []. split; [constructor | now rewrite app_nil_r].
  - cbn [forEach] in H.
    apply bind_returns in H. destruct H as ([] & w3 & Hbody & Hrest).
    apply bind_returns in Hbody. destruct Hbody as (inj & w1 & Hcreate & Hbody).
    apply bind_returns in Hbody. destruct Hbody as (inst & w2 & Hget & Hreg).
    unfold ReflectiveInjector_resolveAndCreate in Hcreate.
    destruct (resolveAndCreate ([c] ++ providers ++ globals))
      as [e|inj'] eqn:Hres; [discriminate|].
    inversion Hcreate; subst inj' w1; clear Hcreate.
    unfold Injector_get in Hget.
    destruct (injectorGet inj c) as [e|inst']; [discriminate|].
    inversion Hget; subst inst' w2; clear Hget.
    rewrite registrar_run in Hreg. inversion Hreg; subst w3; clear Hreg.
    destruct (IH _ Hrest) as (events & Hfor & Hinj).
    exists (Created (c :: providers ++ globals) inj :: Fetched inj c :: events).
    split; [now constructor|].
    rewrite Hinj. cbn [injection]. now rewrite <- !app_assoc.
Qed.

Lemma addModule_containers (module : ModuleMetadata Class)
      (option : option (ExpressAppOption Class)) (w w' : State) :
  addModule (Some module) option w = (inr tt, w') ->
  exists events,
    containersFor resolveAndCreate
      (Js.orEmpty (module_providers module)) (globalProviders option)
      (Js.orEmpty (module_controllers module)) events
    /\ injection w' = injection w ++ events.
Proof.
  unfold addModuleToExpressApp. intros H.
  apply bind_returns in H. destruct H as (store & w1 & Hstore & H).
  unfold getMetadataArgsStore, ret in Hstore. inversion Hstore; subst.
  now apply controllers_loop in H.
Qed.

(** The module loop of [useExpressServer]. *)
Lemma modules_loop (option : option (ExpressAppOption Class))
      (moduleClasses : list Class) (w w' : State) :
  forEach
    (fun moduleClass =>
       bind (createModuleInstance construct moduleClass)
            (fun _ =>
               bind (Reflect_getMetadata_module reflectModule moduleClass)
                    (fun module => addModule module option)))
    moduleClasses w
  = (inr tt, w') ->
  exists events,
    modulesFor reflectModule resolveAndCreate (globalProviders option)
               moduleClasses events
    /\ injection w' = injection w ++ events.
Proof.
  revert w. induction moduleClasses as [|mc rest IH]; intros w H.
  - simpl in H. unfold ret in H. inversion H; subst.
    exists []. split; [constructor | now rewrite app_nil_r].
  - cbn [forEach] in H.
    apply bind_returns in H. destruct H as ([] & w3 & Hbody & Hrest).
    apply bind_returns in Hbody. destruct Hbody as (o & w1 & Hnew & Hbody).
    apply bind_returns in Hbody. destruct Hbody as (md & w2 & Hmeta & Hadd).
    unfold createModuleInstance in Hnew.
    destruct (construct mc) as [e|o']; [discriminate|].
    inversion Hnew; subst o' w1; clear Hnew.
    unfold Reflect_getMetadata_module, ret in Hmeta.
    inversion Hmeta; subst md w2; clear Hmeta.
    destruct (reflectModule mc) as [descriptor|] eqn:Hdesc.
    + apply addModule_containers in Hadd.
      destruct Hadd as (events & Hfor & Hinj).
      destruct (IH _ Hrest) as (events' & Hmods & Hinj').
      exists (events ++ events'). split.
      * now apply modulesFor_cons with (descriptor := descriptor).
      * rewrite Hinj', Hinj. cbn [injection]. now rewrite app_assoc.
    + unfold addModuleToExpressApp, getMetadataArgsStore in Hadd.
      rewrite bind_ret in Hadd. discriminate.
Qed.

(** C5: a completed [addModuleToExpressApp] has, for each controller of
    the module in order, created one container seeded with
    [controller :: moduleProviders ++ globalProviders] and fetched the
    controller from that container, and has done nothing else with the
    injection library.  A completed [useExpressServer] has done so for
    the controllers of every imported module and then for the standalone
    controllers, those with the seed [controller :: globalProviders]. *)
Theorem controllers_get_their_own_container :
  (forall (module : ModuleMetadata Class)
          (option : option (ExpressAppOption Class)) (w w' : State),
      addModule (Some module) option w = (inr tt, w') ->
      exists events,
        containersFor resolveAndCreate
          (Js.orEmpty (module_providers module)) (globalProviders option)
          (Js.orEmpty (module_controllers module)) events
        /\ injection w' = injection w ++ events)
  /\ (forall (option : ExpressAppOption Class) (w w' : State),
         bootstrap (Some option) w = (inr true, w') ->
         exists moduleEvents standaloneEvents,
           modulesFor reflectModule resolveAndCreate
             (Js.orEmpty (option_providers option))
             (Js.orEmpty (option_imports option)) moduleEvents
           /\ containersFor resolveAndCreate
                [] (Js.orEmpty (option_providers option))
                (Js.orEmpty (option_controllers option)) standaloneEvents
           /\ injection w'
              = injection w ++ moduleEvents ++ standaloneEvents).
Proof.
  split; [exact addModule_containers|].
  intros option w w' H. unfold useExpressServer in H.
  apply bind_returns in H. destruct H as ([] & w1 & Hmods & H).
  apply bind_returns in H. destruct H as ([] & w2 & Hctl & H).
  unfold ret in H. inversion H; subst w2; clear H.
  apply modules_loop in Hmods. destruct Hmods as (evM & HM & HinjM).
  exists evM.
  destruct (0 <? List.length (Js.orEmpty (option_controllers option)))%nat
    eqn:Hlen.
  - apply addModule_containers in Hctl.
    destruct Hctl as (evC & HC & HinjC).
    exists evC. split; [exact HM|]. split; [exact HC|].
    rewrite HinjC, HinjM. now rewrite app_assoc.
  - unfold ret in Hctl. inversion Hctl; subst w'; clear Hctl.
    destruct (Js.orEmpty (option_controllers option)) as [|c cs];
      [|discriminate].
    exists []. split; [exact HM|]. split; [constructor|].
    now rewrite HinjM, app_nil_r.
Qed.

(** *** Further properties of the prefix lookup *)

(** X5: over two lists put end to end the prefix is that of the first
    list when it holds a class entry, and that of the second otherwise. *)
Theorem getPrefix_app :
  forall first second : list Route,
    getPrefix (first ++ second)
    = if existsb (fun r => isClass r) first then getPrefix first
      else getPrefix second.
Proof.
  intros first second. induction first as [|r first IH]; [reflexivity|].
  simpl. now destruct (isClass r).
Qed.

(** X6: the prefix is the path of the first of the class entries; method
    entries play no part, and class entries after the first are ignored. *)
Theorem getPrefix_head_of_class_entries :
  forall routes : list Route,
    getPrefix routes
    = match filter (fun r => isClass r) routes with
      | [] => ""
      | first :: _ => path first
      end.
Proof.
  intros routes. induction routes as [|r routes IH]; [reflexivity|].
  simpl. now destruct (isClass r).
Qed.

(** *** Further properties of the route registrar *)

Lemma filter_none (routes : list Route) :
  (forall r, In r routes -> isClass r = true) ->
  filter (fun r => negb (isClass r)) routes = [].
Proof.
  induction routes as [|r routes IH]; intros Hall; [reflexivity|].
  simpl. rewrite (Hall r (or_introl eq_refl)). simpl.
  apply IH. intros x Hx. apply Hall. now right.
Qed.

(** X7: the prefix is fixed before the loop runs, so method routes listed
    before the class entry are registered under its path as well as those
    listed after it. *)
Theorem addRouterToExpress_prefix_reaches_earlier_routes :
  forall (before after : list Route) (c : Route) (instance : Instance)
         (w : State),
    (forall x, In x before -> isClass x = false) ->
    isClass c = true ->
    registrar (before ++ c :: after) instance w
    = (inr tt,
       mkWorld
         (router w
          ++ map (expected (path c) instance)
                 (before ++ filter (fun r => negb (isClass r)) after))
         (injection w) (instantiated w)).
Proof.
  intros before after c instance w Hno Hc.
  rewrite registrar_run, getPrefix_skips by exact Hno.
  cbn [getPrefix]. rewrite Hc, filter_app, (filter_all _ Hno).
  cbn [filter]. now rewrite Hc.
Qed.

(** X9: a route list made of class entries only (the empty list
    included) registers nothing: the call returns and the world is as it
    was. *)
Theorem addRouterToExpress_class_entries_only :
  forall (routes : list Route) (instance : Instance) (w : State),
    (forall r, In r routes -> isClass r = true) ->
    registrar routes instance w = (inr tt, w).
Proof.
  intros routes instance w Hall.
  rewrite registrar_run, (filter_none _ Hall). cbn [map].
  now rewrite app_nil_r, state_eta.
Qed.

(** *** What registration never undoes *)

Lemma keeps_ret {A : Type} (P : State -> Prop) (a : A) :
  keeps P (ret a : Eff A).
Proof. intros w Hw. exact Hw. Qed.

Lemma keeps_throw {A : Type} (P : State -> Prop) (e : Exception Value) :
  keeps P (throw e : Eff A).
Proof. intros w Hw. exact Hw. Qed.

Lemma keeps_bind {A B : Type} (P : State -> Prop) (m : Eff A)
      (k : A -> Eff B) :
  keeps P m -> (forall a, keeps P (k a)) -> keeps P (bind m k).
Proof.
  intros Hm Hk w Hw. specialize (Hm w Hw). unfold bind.
  destruct (m w) as [[e|a] w1]; cbn [snd] in *; [exact Hm|].
  now apply Hk.
Qed.

Lemma keeps_forEach {A : Type} (P : State -> Prop) (f : A -> Eff unit)
      (xs : list A) :
  (forall x, keeps P (f x)) -> keeps P (forEach f xs).
Proof.
  intros Hf. induction xs as [|x xs IH]; simpl.
  - apply keeps_ret.
  - apply keeps_bind; [apply Hf | intros _; exact IH].
Qed.

(** A property of the routing table alone that the registrar keeps is kept
    by the whole bootstrap: nothing else writes to the table. *)
Lemma keeps_bootstrap (P : State -> Prop)
      (option : option (ExpressAppOption Class)) :
  (forall w1 w2, router w1 = router w2 -> P w1 -> P w2) ->
  (forall routes instance, keeps P (registrar routes instance)) ->
  keeps P (bootstrap option).
Proof.
  intros Hrouter Hreg.
  assert (Hnew : forall c,
             keeps P (createModuleInstance construct c : Eff ModuleInstance)).
  { intros c w Hw. unfold createModuleInstance.
    destruct (construct c); [exact Hw|].
    now apply (Hrouter w). }
  assert (Hcreate : forall seed,
             keeps P (ReflectiveInjector_resolveAndCreate
                        resolveAndCreate seed : Eff Injector)).
  { intros seed w Hw. unfold ReflectiveInjector_resolveAndCreate.
    destruct (resolveAndCreate seed); [exact Hw|].
    now apply (Hrouter w). }
  assert (Hget : forall inj token,
             keeps P (Injector_get injectorGet inj token : Eff Instance)).
  { intros inj token w Hw. unfold Injector_get.
    destruct (injectorGet inj token); [exact Hw|].
    now apply (Hrouter w). }
  assert (Hmod : forall module, keeps P (addModule module option : Eff unit)).
  { intros module. unfold addModuleToExpressApp.
    apply keeps_bind; [apply keeps_ret|]. intros store.
    destruct module as [module|]; [|apply keeps_throw].
    apply keeps_forEach. intros controller.
    apply keeps_bind; [apply Hcreate|]. intros inj.
    apply keeps_bind; [apply Hget|]. intros instance. apply Hreg. }
  unfold useExpressServer. apply keeps_bind.
  - apply keeps_forEach. intros moduleClass.
    apply keeps_bind; [apply Hnew|]. intros _.
    apply keeps_bind; [apply keeps_ret|]. intros module. apply Hmod.
  - intros _. apply keeps_bind; [|intros _; apply keeps_ret].
    destruct (0 <? _)%nat; [apply Hmod | apply keeps_ret].
Qed.

Lemma expected_path_absolute (prefix : string) (instance : Instance)
      (r : Route) :
  Js.charAt 0 (reg_path (expected prefix instance r)) = "/".
Proof.
  unfold expectedRegistration. cbn [reg_path].
  destruct (startsWithSlash_inv _ (combine_absolute prefix (path r)))
    as [rest ->].
  reflexivity.
Qed.

(** X8: when every path in the routing table begins with ['/'], the same
    holds after [useExpressServer], whether it returned or threw part of
    the way. *)
Theorem useExpressServer_keeps_paths_absolute :
  forall (option : option (ExpressAppOption Class)) (w : State),
    absolutePaths w -> absolutePaths (snd (bootstrap option w)).
Proof.
  intros option. apply keeps_bootstrap.
  - unfold absolutePaths. now intros w1 w2 <-.
  - intros routes instance w Hw. rewrite registrar_run. cbn [snd].
    unfold absolutePaths in *. cbn [router].
    apply Forall_app. split; [exact Hw|].
    apply Forall_forall. intros reg Hin.
    apply in_map_iff in Hin. destruct Hin as (r & <- & _).
    apply expected_path_absolute.
Qed.

(** X10: [useExpressServer] never looks at what is already registered.
    For given options the result (value or exception) and the things
    added are the same from every world, and the routing table, the
    injection history and the list of instantiated modules only grow at
    the end, also when the call throws. *)
Theorem useExpressServer_only_appends :
  forall option : option (ExpressAppOption Class),
  exists (result : Exception Value + bool)
         (added : list (Registration RequestMethod Middleware Request
                                     Response Value W))
         (events : list (InjectorEvent Class Injector))
         (built : list Class),
  forall w : State,
    bootstrap option w
    = (result,
       mkWorld (router w ++ added) (injection w ++ events)
               (instantiated w ++ built)).
Proof.
  intros option. destruct (uniform_bootstrap option) as (r & d & Hadds).
  exists r, (router d), (injection d), (instantiated d). exact Hadds.
Qed.

(** *** Empty inputs *)

(** X11: with no options, or with options that name neither a module nor
    a standalone controller, [useExpressServer] returns [true] and leaves
    the world as it was; global providers alone are never handed to the
    injection library. *)
Theorem useExpressServer_nothing_to_register :
  (forall w : State, bootstrap None w = (inr true, w))
  /\ (forall (option : ExpressAppOption Class) (w : State),
         Js.orEmpty (option_imports option) = [] ->
         Js.orEmpty (option_controllers option) = [] ->
         bootstrap (Some option) w = (inr true, w)).
Proof.
  split; [reflexivity|].
  intros option w Hi Hc. unfold useExpressServer. now rewrite Hi, Hc.
Qed.

(** X17: a module without controllers (the key absent, or an empty list)
    creates no container and registers nothing, whatever providers it
    declares. *)
Theorem addModuleToExpressApp_without_controllers :
  forall (module : ModuleMetadata Class)
         (option : option (ExpressAppOption Class)) (w : State),
    Js.orEmpty (module_controllers module) = [] ->
    addModule (Some module) option w = (inr tt, w).
Proof.
  intros module option w H. unfold addModuleToExpressApp, getMetadataArgsStore.
  rewrite bind_ret, H. reflexivity.
Qed.

(** *** Failures *)




(** *** Splitting a registration in two *)

Lemma forEach_app {A : Type} (f : A -> Eff unit) (xs ys : list A)
      (w : State) :
  forEach f (xs ++ ys) w
  = match forEach f xs w with
    | (inr _, w1) => forEach f ys w1
    | (inl e, w1) => (inl e, w1)
    end.
Proof.
  revert w. induction xs as [|x xs IH]; intros w; [reflexivity|].
  cbn [app forEach]. unfold bind.
  destruct (f x w) as [[e|[]] w1]; [reflexivity | apply IH].
Qed.

(** X18: registering a module whose controller list is [xs ++ ys] is
    registering the controllers [xs] and then, unless that threw, the
    controllers [ys] with the same providers. *)
Theorem addModuleToExpressApp_split :
  forall (xs ys : list Class) (providers : option (list Class))
         (option : option (ExpressAppOption Class)) (w : State),
    addModule (Some (mkModuleMetadata (Some (xs ++ ys)) providers)) option w
    = match addModule (Some (mkModuleMetadata (Some xs) providers))
                      option w with
      | (inr _, w1) =>
          addModule (Some (mkModuleMetadata (Some ys) providers)) option w1
      | (inl e, w1) => (inl e, w1)
      end.
Proof.
  intros xs ys providers option w.
  unfold addModuleToExpressApp, getMetadataArgsStore.
  rewrite !bind_ret.
  cbn [module_controllers module_providers Js.orEmpty].
  rewrite forEach_app.
  destruct (forEach _ xs w) as [[e|[]] w1]; [reflexivity|].
  now rewrite bind_ret.
Qed.

(** [useExpressServer] read as its two phases; the options reach
    [addModuleToExpressApp] for their providers only. *)
Lemma bootstrap_phases (imports : list Class)
      (controllers providers : Datatypes.option (list Class)) (w : State) :
  bootstrap (Some (mkExpressAppOption (Some imports) controllers providers)) w
  = match
      forEach
        (fun moduleClass =>
           bind (createModuleInstance construct moduleClass)
                (fun _ =>
                   bind (Reflect_getMetadata_module reflectModule moduleClass)
                        (fun module =>
                           addModule module
                             (Some (mkExpressAppOption None None providers)))))
        imports w
    with
    | (inr _, w1) =>
        match
          (if (0 <? List.length (Js.orEmpty controllers))%nat then
             addModule
               (Some (mkModuleMetadata (Some (Js.orEmpty controllers)) None))
               (Some (mkExpressAppOption None None providers))
           else ret tt) w1
        with
        | (inr _, w2) => (inr true, w2)
        | (inl e, w2) => (inl e, w2)
        end
    | (inl e, w1) => (inl e, w1)
    end.
Proof.
  reflexivity.
Qed.

(** X19: one call that imports [first ++ second] and names standalone
    controllers is a call that imports [first] alone followed, unless
    that threw, by a call that imports [second] and names the standalone
    controllers, all with the same global providers. *)
Theorem useExpressServer_split :
  forall (first second : list Class)
         (controllers providers : Datatypes.option (list Class))
         (w : State),
    bootstrap (Some (mkExpressAppOption (Some (first ++ second))
                                        controllers providers)) w
    = match bootstrap (Some (mkExpressAppOption (Some first) None
                                                providers)) w with
      | (inr _, w1) =>
          bootstrap (Some (mkExpressAppOption (Some second) controllers
                                              providers)) w1
      | (inl e, w1) => (inl e, w1)
      end.
Proof.
  intros first second controllers providers w.
  rewrite (bootstrap_phases (first ++ second)),
    (bootstrap_phases first None), forEach_app.
  destruct (forEach _ first w) as [[e|[]] w1]; reflexivity.
Qed.

(** *** The world after a completed bootstrap *)

Local Notation routesOf :=
  (controllerRoutes metadataArgsStore combineRouteWithMiddleware
     combineMiddlewares resolveAndCreate injectorGet instanceMethod).
Local Notation routesOfModule :=
  (moduleRoutes reflectModule metadataArgsStore combineRouteWithMiddleware
     combineMiddlewares resolveAndCreate injectorGet instanceMethod).

Lemma controllers_loop_world
      (store : MetadataArgsStore RouteStore MiddlewareStore)
      (providers globals controllers : list Class) (w w' : State) :
  store = metadataArgsStore ->
  forEach
    (fun controller =>
       bind (ReflectiveInjector_resolveAndCreate resolveAndCreate
               ([controller] ++ providers ++ globals))
            (fun injector =>
               bind (Injector_get injectorGet injector controller)
                    (fun controllerInstance =>
                       registrar
                         (combineRouteWithMiddleware controller
                            (store_routes store) (store_middlewares store))
                         controllerInstance)))
    controllers w
  = (inr tt, w') ->
  router w' = router w ++ flat_map (routesOf providers globals) controllers
  /\ instantiated w' = instantiated w.
Proof.
  intros ->. revert w. induction controllers as [|c rest IH]; intros w H.
  - simpl in H. unfold ret in H. inversion H; subst.
    split; [now rewrite app_nil_r | reflexivity].
  - cbn [forEach] in H.
    apply bind_returns in H. destruct H as ([] & w3 & Hbody & Hrest).
    apply bind_returns in Hbody.
    destruct Hbody as (inj & w1 & Hcreate & Hbody).
    apply bind_returns in Hbody.
    destruct Hbody as (inst & w2 & Hget & Hreg).
    unfold ReflectiveInjector_resolveAndCreate in Hcreate.
    cbn [flat_map]. unfold controllerRoutes at 1.
    destruct (resolveAndCreate ([c] ++ providers ++ globals))
      as [e|inj']; [discriminate|].
    inversion Hcreate; subst inj' w1; clear Hcreate.
    unfold Injector_get in Hget.
    destruct (injectorGet inj c) as [e|inst']; [discriminate|].
    inversion Hget; subst inst' w2; clear Hget.
    rewrite registrar_run in Hreg. inversion Hreg; subst w3; clear Hreg.
    destruct (IH _ Hrest) as (Hr & Hi). rewrite Hr, Hi.
    cbn [router instantiated]. now rewrite app_assoc.
Qed.

Lemma addModule_world (module : ModuleMetadata Class)
      (option : option (ExpressAppOption Class)) (w w' : State) :
  addModule (Some module) option w = (inr tt, w') ->
  router w'
  = router w
    ++ flat_map (routesOf (Js.orEmpty (module_providers module))
                          (globalProviders option))
                (Js.orEmpty (module_controllers module))
  /\ instantiated w' = instantiated w.
Proof.
  unfold addModuleToExpressApp, getMetadataArgsStore. rewrite bind_ret.
  intros H. now apply controllers_loop_world in H.
Qed.

Lemma modules_loop_world (option : option (ExpressAppOption Class))
      (moduleClasses : list Class) (w w' : State) :
  forEach
    (fun moduleClass =>
       bind (createModuleInstance construct moduleClass)
            (fun _ =>
               bind (Reflect_getMetadata_module reflectModule moduleClass)
                    (fun module => addModule module option)))
    moduleClasses w
  = (inr tt, w') ->
  router w'
  = router w ++ flat_map (routesOfModule (globalProviders option))
                         moduleClasses
  /\ instantiated w' = instantiated w ++ moduleClasses.
Proof.
  revert w. induction moduleClasses as [|mc rest IH]; intros w H.
  - simpl in H. unfold ret in H. inversion H; subst.
    now rewrite !app_nil_r.
  - cbn [forEach] in H.
    apply bind_returns in H. destruct H as ([] & w3 & Hbody & Hrest).
    apply bind_returns in Hbody. destruct Hbody as (o & w1 & Hnew & Hbody).
    apply bind_returns in Hbody. destruct Hbody as (md & w2 & Hmeta & Hadd).
    unfold createModuleInstance in Hnew.
    destruct (construct mc) as [e|o']; [discriminate|].
    inversion Hnew; subst o' w1; clear Hnew.
    unfold Reflect_getMetadata_module, ret in Hmeta.
    inversion Hmeta; subst md w2; clear Hmeta.
    cbn [flat_map]. unfold moduleRoutes at 1.
    destruct (reflectModule mc) as [descriptor|].
    + apply addModule_world in Hadd. destruct Hadd as (Hr & Hi).
      destruct (IH _ Hrest) as (Hr' & Hi').
      rewrite Hr', Hi', Hr, Hi. cbn [router instantiated].
      now rewrite <- !app_assoc.
    + unfold addModuleToExpressApp, getMetadataArgsStore in Hadd.
      rewrite bind_ret in Hadd. discriminate.
Qed.

(** The routing table and the instantiated modules after a completed
    call. *)
Lemma bootstrap_world (option : ExpressAppOption Class) (w w' : State) :
  bootstrap (Some option) w = (inr true, w') ->
  router w'
  = router w
    ++ flat_map (routesOfModule (Js.orEmpty (option_providers option)))
                (Js.orEmpty (option_imports option))
    ++ flat_map (routesOf [] (Js.orEmpty (option_providers option)))
                (Js.orEmpty (option_controllers option))
  /\ instantiated w' = instantiated w ++ Js.orEmpty (option_imports option).
Proof.
  intros H. unfold useExpressServer in H.
  apply bind_returns in H. destruct H as ([] & w1 & Hmods & H).
  apply bind_returns in H. destruct H as ([] & w2 & Hctl & H).
  unfold ret in H. inversion H; subst w2; clear H.
  apply modules_loop_world in Hmods. destruct Hmods as (Hr & Hi).
  destruct (0 <? List.length (Js.orEmpty (option_controllers option)))%nat
    eqn:Hlen.
  - apply addModule_world in Hctl. destruct Hctl as (Hr' & Hi').
    rewrite Hr', Hi', Hr, Hi. split; [|reflexivity].
    now rewrite <- app_assoc.
  - unfold ret in Hctl. inversion Hctl; subst w'; clear Hctl.
    destruct (Js.orEmpty (option_controllers option)) as [|c cs];
      [|discriminate].
    rewrite Hr, Hi. cbn [flat_map]. now rewrite app_nil_r.
Qed.

(** X15: a completed [useExpressServer] has instantiated every imported
    module class exactly once, in import order, and no other class:
    standalone controllers and providers are never constructed with
    [new] here. *)
Theorem useExpressServer_instantiates_each_import_once :
  forall (option : ExpressAppOption Class) (w w' : State),
    bootstrap (Some option) w = (inr true, w') ->
    instantiated w' = instantiated w ++ Js.orEmpty (option_imports option).
Proof.
  intros option w w' H. exact (proj2 (bootstrap_world option w H)).
Qed.

(** X16: a completed [useExpressServer] has added to the routing table,
    after what was there, the method routes of every controller of every
    imported module, module by module and controller by controller, and
    then those of the standalone controllers; each route sits under its
    own controller's prefix and is bound to the instance fetched for that
    controller. *)
Theorem useExpressServer_registers_modules_then_controllers :
  forall (option : ExpressAppOption Class) (w w' : State),
    bootstrap (Some option) w = (inr true, w') ->
    router w'
    = router w
      ++ flat_map (routesOfModule (Js.orEmpty (option_providers option)))
                  (Js.orEmpty (option_imports option))
      ++ flat_map (routesOf [] (Js.orEmpty (option_providers option)))
                  (Js.orEmpty (option_controllers option)).
Proof.
  intros option w w' H. exact (proj1 (bootstrap_world option w H)).
Qed.

End RegistrationProperties.

(** ** From registration to dispatch *)

Section RegisteredHandlers.

Variables Class MethodName RequestMethod Middleware : Type.
Variables Request Response Value Injector Instance : Type.
Variable combineMiddlewares : list Middleware -> Middleware.
Variable instanceMethod :
  Instance -> MethodName -> AsyncFn Request Response Value (list Value).

Lemma asyncHelper_recorded
      (fn : AsyncFn Request Response Value (list Value))
      (req : Request) (res : Response) (calls : list Value) :
  asyncHelper fn req res recordingNext calls
  = snd (fn req res recordingNext calls)
    ++ wrapperCalls (fst (fn req res recordingNext calls)).
Proof.
  unfold asyncHelper. destruct (fn req res recordingNext calls) as [p w1].
  cbn [fst snd]. destruct p; cbn; try reflexivity; now rewrite app_nil_r.
Qed.

(** X20: every registration the registrar adds comes from a method entry
    of the list, carries that entry's verb, and ends with a handler that,
    run against a recording [next], calls the method named by the entry on
    the controller instance with the same request, response and [next],
    keeps the calls the method made, and adds the rejection reason when
    the method's promise rejects and nothing otherwise. *)
Theorem registered_handlers_dispatch_to_instance :
  forall (routes : list (CombineRoute MethodName RequestMethod Middleware))
         (instance : Instance)
         (w : World Class RequestMethod Middleware Request Response Value
                    (list Value) Injector)
         (added : list (Registration RequestMethod Middleware Request
                                     Response Value (list Value)))
         (reg : Registration RequestMethod Middleware Request Response
                             Value (list Value)),
    router (snd (addRouterToExpress combineMiddlewares instanceMethod
                                    routes instance w))
    = router w ++ added ->
    In reg added ->
    exists route front handler,
      In route routes
      /\ isClass route = false
      /\ reg_method reg = requestMethod route
      /\ reg_callbacks reg = front ++ [HandlerFn handler]
      /\ forall (req : Request) (res : Response) (calls : list Value),
          let settled :=
            instanceMethod instance (methodName route) req res
                           recordingNext calls in
          handler req res recordingNext calls
          = snd settled ++ wrapperCalls (fst settled).
Proof.
  intros routes instance w added reg Hrun Hin.
  rewrite registrar_run in Hrun. cbn [snd router] in Hrun.
  apply app_inv_head in Hrun. subst added.
  apply in_map_iff in Hin. destruct Hin as (route & <- & Hroute).
  apply filter_In in Hroute. destruct Hroute as (Hroute & Hclass).
  exists route.
  exists (if (0 <? List.length (middlewares route))%nat
          then [MiddlewareFn (combineMiddlewares (middlewares route))]
          else []).
  exists (callInstance instanceMethod instance route).
  split; [exact Hroute|].
  split; [now destruct (isClass route)|].
  split; [reflexivity|].
  split.
  - unfold expectedRegistration. cbn [reg_callbacks].
    now destruct (middlewares route).
  - intros req res calls. cbv zeta. unfold callInstance.
    apply asyncHelper_recorded.
Qed.

End RegisteredHandlers.

(** ** The theorems at work on the small application *)

Lemma getPrefix_first_class_witness :
  getPrefix Demo.userRoutes = "/users"
  /\ getPrefix Demo.healthRoutes = "".
Proof.
  split.
  - apply (proj1 (getPrefix_first_class Demo.userRoutes)
             [mkCombineRoute false Demo.GET "/:id" Demo.getUser []]
             (mkCombineRoute true Demo.GET "/users" Demo.getUser [])
             [mkCombineRoute false Demo.POST "/" Demo.createUser
                             [Demo.Auth; Demo.Audit];
              mkCombineRoute true Demo.GET "/ignored" Demo.getUser []]).
    + reflexivity.
    + intros x [<-|[]]. reflexivity.
    + reflexivity.
  - apply (proj2 (getPrefix_first_class Demo.healthRoutes)).
    intros x [<-|[<-|[]]]; reflexivity.
Defined.

Lemma addRouterToExpress_without_prefix_entry_witness :
  (forall r, In r Demo.healthRoutes -> isClass r = false)
  /\ map (fun r => (reg_method r, reg_path r, List.length (reg_callbacks r)))
         (router (snd (Demo.register Demo.healthRoutes Demo.HealthController
                                     Demo.start)))
     = [(Demo.GET, "/ping", 1); (Demo.GET, "/live", 2)].
Proof.
  assert (Hno : forall r, In r Demo.healthRoutes -> isClass r = false).
  { intros r [<-|[<-|[]]]; reflexivity. }
  split; [exact Hno|].
  unfold Demo.register.
  rewrite (proj2 (addRouterToExpress_without_prefix_entry
                    Demo.combineMiddlewares Demo.instanceMethod
                    Demo.healthRoutes Demo.HealthController Demo.start Hno)).
  reflexivity.
Defined.

Lemma controllers_get_their_own_container_witness :
  Demo.bootstrap (Some Demo.options) Demo.start = (inr true, Demo.once)
  /\ injection Demo.once
     = [Created [Demo.UserController; Demo.UserService; Demo.Logger]
                [Demo.UserController; Demo.UserService; Demo.Logger];
        Fetched [Demo.UserController; Demo.UserService; Demo.Logger]
                Demo.UserController;
        Created [Demo.HealthController; Demo.Logger]
                [Demo.HealthController; Demo.Logger];
        Fetched [Demo.HealthController; Demo.Logger] Demo.HealthController]
  /\ exists moduleEvents standaloneEvents,
      modulesFor Demo.reflectModule Demo.resolveAndCreate
                 [Demo.Logger] [Demo.UserModule] moduleEvents
      /\ containersFor Demo.resolveAndCreate [] [Demo.Logger]
                       [Demo.HealthController] standaloneEvents
      /\ injection Demo.once
         = injection Demo.start ++ moduleEvents ++ standaloneEvents.
Proof.
  split; [reflexivity|]. split; [reflexivity|].
  apply (proj2 (controllers_get_their_own_container
                  Demo.construct Demo.reflectModule Demo.store
                  Demo.combineRouteWithMiddleware Demo.combineMiddlewares
                  Demo.resolveAndCreate Demo.injectorGet Demo.instanceMethod)
           Demo.options Demo.start Demo.once).
  reflexivity.
Defined.

Lemma useExpressServer_twice_registers_twice_witness :
  Demo.bootstrap (Some Demo.options) Demo.start = (inr true, Demo.once)
  /\ List.length (router Demo.once) = 4
  /\ List.length (router Demo.twice) = 8
  /\ exists added,
      router Demo.once = router Demo.start ++ added
      /\ exists w2,
          Demo.bootstrap (Some Demo.options) Demo.once = (inr true, w2)
          /\ router w2 = router Demo.start ++ added ++ added.
Proof.
  split; [reflexivity|]. split; [reflexivity|]. split; [reflexivity|].
  apply (useExpressServer_twice_registers_twice
           Demo.construct Demo.reflectModule Demo.store
           Demo.combineRouteWithMiddleware Demo.combineMiddlewares
           Demo.resolveAndCreate Demo.injectorGet Demo.instanceMethod
           (Some Demo.options) Demo.start (w1 := Demo.once)).
  reflexivity.
Defined.

Lemma useExpressServer_returns_true_witness :
  Demo.bootstrap (Some Demo.options) Demo.start
  = (inr Demo.returned, Demo.once)
  /\ Demo.returned = true
  /\ Demo.bootstrap None Demo.start = (inr true, Demo.start).
Proof.
  split; [reflexivity|]. split; [|reflexivity].
  apply (useExpressServer_returns_true
           Demo.construct Demo.reflectModule Demo.store
           Demo.combineRouteWithMiddleware Demo.combineMiddlewares
           Demo.resolveAndCreate Demo.injectorGet Demo.instanceMethod
           (Some Demo.options) Demo.start (w' := Demo.once)).
  reflexivity.
Defined.

Lemma addRouterToExpress_prefix_reaches_earlier_routes_witness :
  map (fun r => (reg_method r, reg_path r))
      (router (snd (Demo.register Demo.userRoutes Demo.UserController
                                  Demo.start)))
  = [(Demo.GET, "/users/:id"); (Demo.POST, "/users/")].
Proof.
  assert (E := addRouterToExpress_prefix_reaches_earlier_routes
                 Demo.combineMiddlewares Demo.instanceMethod
                 [mkCombineRoute false Demo.GET "/:id" Demo.getUser []]
                 [mkCombineRoute false Demo.POST "/" Demo.createUser
                                 [Demo.Auth; Demo.Audit];
                  mkCombineRoute true Demo.GET "/ignored" Demo.getUser []]
                 (mkCombineRoute true Demo.GET "/users" Demo.getUser [])
                 Demo.UserController Demo.start).
  unfold Demo.register.
  change Demo.userRoutes
    with ([mkCombineRoute false Demo.GET "/:id" Demo.getUser []]
          ++ mkCombineRoute true Demo.GET "/users" Demo.getUser []
          :: [mkCombineRoute false Demo.POST "/" Demo.createUser
                             [Demo.Auth; Demo.Audit];
              mkCombineRoute true Demo.GET "/ignored" Demo.getUser []]).
  rewrite E.
  - reflexivity.
  - intros x [<-|[]]. reflexivity.
  - reflexivity.
Defined.

Lemma useExpressServer_keeps_paths_absolute_witness :
  absolutePaths Demo.start /\ absolutePaths Demo.once.
Proof.
  assert (H : absolutePaths Demo.start) by constructor.
  split; [exact H|].
  exact (useExpressServer_keeps_paths_absolute
           Demo.construct Demo.reflectModule Demo.store
           Demo.combineRouteWithMiddleware Demo.combineMiddlewares
           Demo.resolveAndCreate Demo.injectorGet Demo.instanceMethod
           (Some Demo.options) H).
Defined.

Lemma addRouterToExpress_class_entries_only_witness :
  (forall r, In r Demo.prefixOnly -> isClass r = true)
  /\ Demo.register Demo.prefixOnly Demo.UserController Demo.once
     = (inr tt, Demo.once).
Proof.
  assert (H : forall r, In r Demo.prefixOnly -> isClass r = true).
  { intros r [<-|[<-|[]]]; reflexivity. }
  split; [exact H|].
  exact (addRouterToExpress_class_entries_only
           Demo.combineMiddlewares Demo.instanceMethod
           Demo.prefixOnly Demo.UserController Demo.once H).
Defined.

Lemma useExpressServer_nothing_to_register_witness :
  Demo.bootstrap
    (Some (mkExpressAppOption None (Some []) (Some [Demo.Logger])))
    Demo.once
  = (inr true, Demo.once).
Proof.
  apply (proj2 (useExpressServer_nothing_to_register
                  Demo.construct Demo.reflectModule Demo.store
                  Demo.combineRouteWithMiddleware Demo.combineMiddlewares
                  Demo.resolveAndCreate Demo.injectorGet
                  Demo.instanceMethod));
    reflexivity.
Defined.

Lemma addModuleToExpressApp_without_controllers_witness :
  Demo.addModule
    (Some (mkModuleMetadata None (Some [Demo.UserService])))
    (Some Demo.options) Demo.once
  = (inr tt, Demo.once).
Proof.
  apply (addModuleToExpressApp_without_controllers
           Demo.store Demo.combineRouteWithMiddleware
           Demo.combineMiddlewares Demo.resolveAndCreate Demo.injectorGet
           Demo.instanceMethod).
  reflexivity.
Defined.




Lemma useExpressServer_instantiates_each_import_once_witness :
  Demo.bootstrap (Some Demo.options) Demo.start = (inr true, Demo.once)
  /\ instantiated Demo.once = [Demo.UserModule].
Proof.
  split; [reflexivity|].
  apply (useExpressServer_instantiates_each_import_once
           Demo.construct Demo.reflectModule Demo.store
           Demo.combineRouteWithMiddleware Demo.combineMiddlewares
           Demo.resolveAndCreate Demo.injectorGet Demo.instanceMethod
           Demo.options Demo.start (w' := Demo.once)).
  reflexivity.
Defined.

Lemma useExpressServer_registers_modules_then_controllers_witness :
  Demo.bootstrap (Some Demo.options) Demo.start = (inr true, Demo.once)
  /\ map (fun r => (reg_method r, reg_path r)) (router Demo.once)
     = [(Demo.GET, "/users/:id"); (Demo.POST, "/users/");
        (Demo.GET, "/ping"); (Demo.GET, "/live")].
Proof.
  split; [reflexivity|].
  rewrite (useExpressServer_registers_modules_then_controllers
             Demo.construct Demo.reflectModule Demo.store
             Demo.combineRouteWithMiddleware Demo.combineMiddlewares
             Demo.resolveAndCreate Demo.injectorGet Demo.instanceMethod
             Demo.options Demo.start (w' := Demo.once) eq_refl).
  reflexivity.
Defined.

Lemma registered_handlers_dispatch_to_instance_witness :
  exists route front handler,
    In route Demo.userRoutes
    /\ isClass route = false
    /\ reg_method Demo.getUserRegistration = requestMethod route
    /\ reg_callbacks Demo.getUserRegistration = front ++ [HandlerFn handler]
    /\ forall (req res : unit) (calls : list string),
        let settled :=
          Demo.instanceMethod Demo.UserController (methodName route)
                              req res recordingNext calls in
        handler req res recordingNext calls
        = snd settled ++ wrapperCalls (fst settled).
Proof.
  apply (registered_handlers_dispatch_to_instance
           Demo.combineMiddlewares Demo.instanceMethod
           Demo.userRoutes Demo.UserController Demo.start
           (router (snd (Demo.register Demo.userRoutes Demo.UserController
                                       Demo.start)))
           Demo.getUserRegistration).
  - reflexivity.
  - left. reflexivity.
Defined.
